(** * generate_architecture_diagram.py: the two diagram builders

    The script declares two fixed diagrams through the [diagrams] package
    (node constructors, [Cluster] and [Diagram] context managers, the [>>]
    connector) and lets the package hand each finished graph to its layout
    engine.  The development below embeds the script statement by statement
    in a state-and-exception monad whose state holds what Python keeps
    around the script: the local variables of the running function, the
    package's two context variables, the standard output, the files of the
    working directory and the graphs handed to the engine. *)

From stdpp Require Import base strings pretty gmap list.

Set Default Proof Using "Type".

(** ** Data model *)

(** The node classes the script imports (lines 13 to 21). *)
Inductive Category :=
  | ComputeEngine | GKE | Run
  | SQL | Memorystore
  | VPC | LoadBalancing | DNS | FirewallRules
  | GCS | Filestore
  | Iam | KMS
  | BigQuery
  | ContainerRegistry
  | Users
  | Internet.

Inductive Provider := Gcp | OnPrem.

Inductive ResourceType :=
  | Compute | Database | Network | Storage | Security | Analytics
  | Devtools | Client.

(** The package module each class is imported from:
    [from diagrams.<provider>.<type> import <class>]. *)
Definition module_of (c : Category) : Provider * ResourceType :=
  match c with
  | ComputeEngine | GKE | Run => (Gcp, Compute)
  | SQL | Memorystore => (Gcp, Database)
  | VPC | LoadBalancing | DNS | FirewallRules => (Gcp, Network)
  | GCS | Filestore => (Gcp, Storage)
  | Iam | KMS => (Gcp, Security)
  | BigQuery => (Gcp, Analytics)
  | ContainerRegistry => (Gcp, Devtools)
  | Users => (OnPrem, Client)
  | Internet => (OnPrem, Network)
  end.

Definition provider (c : Category) : Provider := (module_of c).1.
Definition resource_type (c : Category) : ResourceType := (module_of c).2.

#[global] Instance Category_eq_dec : EqDecision Category.
Proof. solve_decision. Defined.
#[global] Instance Provider_eq_dec : EqDecision Provider.
Proof. solve_decision. Defined.
#[global] Instance ResourceType_eq_dec : EqDecision ResourceType.
Proof. solve_decision. Defined.

(** A node object.  [uid] is the random identifier the package draws for
    the node; [ident] is the local variable the script binds the node to,
    the identifier by which the edge statements name it. *)
Record Node := mkNode {
  uid : string;
  ident : string;
  category : Category;
  label : string
}.

(** An edge as [Edge.__init__] stores it. *)
Record Edge := mkEdge {
  src : Node;
  dst : Node;
  forward : bool;
  reverse : bool;
  elabel : string;
  color : string;
  style : string
}.

(** What a diagram or a cluster holds: nodes and nested clusters. *)
#[local] Unset Elimination Schemes.
Inductive Item :=
  | INode (n : Node)
  | ICluster (clabel : string) (body : list Item).
#[local] Set Elimination Schemes.

Record Diagram := mkDiagram {
  name : string;
  filename : string;
  direction : string;
  show : bool;
  outformat : string;
  items : list Item;
  edges : list Edge
}.

Inductive Exn :=
  | NameError (x : string)
  | EnvironmentError (msg : string)
  | ValueError (msg : string)
  | RenderError (msg : string).

(** ** What surrounds the script *)

(** The two things the script does not decide: the identifiers [uuid4]
    draws and whether the layout engine succeeds on a graph ([None]) or
    raises. *)
Record Host := mkHost {
  uuid4 : nat -> string;
  engine : Diagram -> option Exn
}.

(** A cluster whose [with] block is still running. *)
Record OpenCluster := mkOpen {
  olabel : string;
  oitems : list Item
}.

Record World := mkWorld {
  ctx_diagram : option Diagram;
  ctx_cluster : list OpenCluster;
  drawn : nat;
  stdout : list string;
  files : gset string;
  handed : list Diagram
}.

Record St := mkSt {
  locals : gmap string Node;
  world : World
}.

Inductive Result (A : Type) :=
  | Ok (a : A) (s : St)
  | Raise (e : Exn) (s : St).
Arguments Ok {A} a s.
Arguments Raise {A} e s.

Definition M (A : Type) : Type := St -> Result A.

Definition ret {A} (a : A) : M A := fun s => Ok a s.

Definition bind {A B} (m : M A) (k : A -> M B) : M B :=
  fun s => match m s with
           | Ok a s' => k a s'
           | Raise e s' => Raise e s'
           end.

Definition raise {A} (e : Exn) : M A := fun s => Raise e s.

Declare Scope py_scope.
Delimit Scope py_scope with py.
Notation "'let*' x := m 'in' k" := (bind m (fun x => k))
  (at level 10, x name, m at level 100, k at level 200) : py_scope.
Open Scope py_scope.

Definition get_world : M World := fun s => Ok (world s) s.
Definition put_world (w : World) : M unit :=
  fun s => Ok tt (mkSt (locals s) w).

(** A suite of statements: run in order, stop at the first exception. *)
Fixpoint block (stmts : list (M unit)) : M unit :=
  match stmts with
  | [] => ret tt
  | st :: rest => let* _ := st in block rest
  end.

(** [with] statement over a context manager whose [__exit__] returns
    [None]: the exit handler runs whether or not the body raised, and an
    exception of the body is raised again after it unless the handler
    itself raises. *)
Definition with_ (enter exit_ : M unit) (body : list (M unit)) : M unit :=
  fun s =>
    match enter s with
    | Raise e s1 => Raise e s1
    | Ok _ s1 =>
        match block body s1 with
        | Ok _ s2 => exit_ s2
        | Raise e s2 =>
            match exit_ s2 with
            | Ok _ s3 => Raise e s3
            | Raise e' s3 => Raise e' s3
            end
        end
    end.

(** A call of a function without arguments: the callee runs on a frame of
    its own, which is dropped when it returns or raises. *)
Definition call (f : M unit) : M unit :=
  fun s =>
    match f (mkSt ∅ (world s)) with
    | Ok _ s' => Ok tt (mkSt (locals s) (world s'))
    | Raise e s' => Raise e (mkSt (locals s) (world s'))
    end.

Definition print (line : string) : M unit :=
  let* w := get_world in
  put_world (mkWorld (ctx_diagram w) (ctx_cluster w) (drawn w)
                     (stdout w ++ [line]) (files w) (handed w)).

(** The line feed that [\n] denotes in a Python string literal. *)
Definition nl : string :=
  String (Ascii.Ascii false true false true false false false false)
         EmptyString.

(** ** The package primitives the script calls *)

Definition set_ctx_diagram (d : option Diagram) (w : World) : World :=
  mkWorld d (ctx_cluster w) (drawn w) (stdout w) (files w) (handed w).

Definition set_ctx_cluster (c : list OpenCluster) (w : World) : World :=
  mkWorld (ctx_diagram w) c (drawn w) (stdout w) (files w) (handed w).

Definition add_to_diagram (i : Item) (d : Diagram) : Diagram :=
  mkDiagram (name d) (filename d) (direction d) (show d) (outformat d)
            (items d ++ [i]) (edges d).

Definition add_edge (e : Edge) (d : Diagram) : Diagram :=
  mkDiagram (name d) (filename d) (direction d) (show d) (outformat d)
            (items d) (edges d ++ [e]).

(** The directions [Diagram.__init__] accepts. *)
Definition valid_directions : list string := ["TB"; "BT"; "LR"; "RL"].

(** The file the engine writes for a diagram. *)
Definition image_of (d : Diagram) : string :=
  filename d +:+ "." +:+ outformat d.

(** [os.remove(f)] of a file that is there. *)
Definition os_remove (f : string) : M unit :=
  let* w := get_world in
  put_world (mkWorld (ctx_diagram w) (ctx_cluster w) (drawn w) (stdout w)
                     (files w ∖ {[ f ]}) (handed w)).

(** [getdiagram()] followed by the check every constructor makes. *)
Definition getdiagram : M Diagram :=
  let* w := get_world in
  match ctx_diagram w with
  | Some d => ret d
  | None => raise (EnvironmentError "Global diagrams context not set up")
  end.

(** A new node or a closed cluster goes to the innermost open cluster,
    and to the diagram itself when no cluster is open. *)
Definition add_item (i : Item) : M unit :=
  let* d := getdiagram in
  let* w := get_world in
  match ctx_cluster w with
  | c :: outer =>
      put_world (set_ctx_cluster (mkOpen (olabel c) (oitems c ++ [i]) :: outer) w)
  | [] => put_world (set_ctx_diagram (Some (add_to_diagram i d)) w)
  end.

Section Script.

Variable h : Host.

(** [Node.__init__]: draw an identifier, check the diagram context, add
    the node to the current cluster or diagram. *)
Definition new_node (x : string) (c : Category) (l : string) : M Node :=
  let* w := get_world in
  let n := mkNode (uuid4 h (drawn w)) x c l in
  let* _ := put_world (mkWorld (ctx_diagram w) (ctx_cluster w) (S (drawn w))
                               (stdout w) (files w) (handed w)) in
  let* _ := add_item (INode n) in
  ret n.

(** The statement [x = C(l)]. *)
Definition declare (x : string) (c : Category) (l : string) : M unit :=
  let* n := new_node x c l in
  fun s => Ok tt (mkSt (<[x := n]> (locals s)) (world s)).

(** Reading the local variable [x]. *)
Definition load (x : string) : M Node :=
  fun s => match locals s !! x with
           | Some n => Ok n s
           | None => Raise (NameError x) s
           end.

(** [Node.__rshift__] on a node operand: connect with
    [Edge(self, forward=True)], every other attribute at its default, and
    return the right operand.  The edge goes to the diagram of the left
    node, which in this script is always the diagram that is open. *)
Definition rshift (a b : Node) : M Node :=
  let* d := getdiagram in
  let* w := get_world in
  let e := mkEdge a b true false "" "" "" in
  let* _ := put_world (set_ctx_diagram (Some (add_edge e d)) w) in
  ret b.

(** The expression statement [x >> y]. *)
Definition flow (x y : string) : M unit :=
  let* a := load x in
  let* b := load y in
  let* _ := rshift a b in
  ret tt.

(** [with Cluster(l): body]. *)
Definition Cluster_enter (l : string) : M unit :=
  let* _ := getdiagram in
  let* w := get_world in
  put_world (set_ctx_cluster (mkOpen l [] :: ctx_cluster w) w).

Definition Cluster_exit : M unit :=
  let* w := get_world in
  match ctx_cluster w with
  | c :: outer =>
      let* _ := put_world (set_ctx_cluster outer w) in
      add_item (ICluster (olabel c) (oitems c))
  | [] => ret tt
  end.

Definition Cluster (l : string) (body : list (M unit)) : M unit :=
  with_ (Cluster_enter l) Cluster_exit body.

(** [Diagram.__init__] with the four arguments the script passes; the
    output format keeps its default. *)
Definition Diagram_init (nm fn : string) (sh : bool) (dir : string)
  : M Diagram :=
  if bool_decide (dir ∈ valid_directions)
  then ret (mkDiagram nm fn dir sh "png" [] [])
  else raise (ValueError dir).

Definition Diagram_enter (d : Diagram) : M unit :=
  let* w := get_world in
  put_world (set_ctx_diagram (Some d) w).

(** [Diagram.render]: the package first saves the graph as DOT source in
    the file [<filename>], over a file of that name if there is one; then
    the source goes to the layout engine, which writes
    [<filename>.<outformat>] or raises.  When it raises the source file
    stays where it is. *)
Definition render : M unit :=
  let* d := getdiagram in
  let* w := get_world in
  let w' := mkWorld (ctx_diagram w) (ctx_cluster w) (drawn w) (stdout w)
                    ({[ filename d ]} ∪ files w) (handed w ++ [d]) in
  match engine h d with
  | Some e => let* _ := put_world w' in raise e
  | None =>
      put_world (mkWorld (ctx_diagram w') (ctx_cluster w') (drawn w')
                         (stdout w')
                         ({[ image_of d ]} ∪ files w')
                         (handed w'))
  end.

(** [Diagram.__exit__]: render, remove the DOT source that [render] has
    saved (it is there: [render] wrote it and returned), then clear the
    diagram context.  Neither step is reached when [render] raises. *)
Definition Diagram_exit : M unit :=
  let* _ := render in
  let* d := getdiagram in
  let* _ := os_remove (filename d) in
  let* w := get_world in
  put_world (set_ctx_diagram None w).

(** [with Diagram(nm, filename=fn, show=sh, direction=dir): body]. *)
Definition with_Diagram (nm fn : string) (sh : bool) (dir : string)
    (body : list (M unit)) : M unit :=
  let* d := Diagram_init nm fn sh dir in
  with_ (Diagram_enter d) Diagram_exit body.

Notation "x ::= c ( l )" := (declare x c l)
  (at level 1, c at level 0, l at level 200).
Notation "x >> y" := (flow x y) (at level 70, no associativity).

(** ** The script *)

(** Lines 23 to 173. *)
Definition create_gcp_architecture_diagram : M unit :=
  with_Diagram "Terraform GCP Multi-Region Infrastructure"
               "gcp_architecture_diagram" false "TB"
  [ "users" ::= Users("Users");
    "internet" ::= Internet("Internet");
    Cluster "Global Resources"
    [ "dns" ::= DNS("Cloud DNS");
      "lb_global" ::= LoadBalancing("Global Load Balancer");
      "iam" ::= Iam("IAM & Service Accounts");
      "kms" ::= KMS("Cloud KMS");
      "monitoring" ::= BigQuery("Cloud Monitoring");
      "registry" ::= ContainerRegistry("Artifact Registry") ];
    Cluster "Primary Region (us-central1)"
    [ Cluster "VPC Network"
      [ "vpc_primary" ::= VPC("VPC");
        Cluster "Subnets"
        [ "web_subnet" ::= VPC("Web Subnet");
          "app_subnet" ::= VPC("App Subnet");
          "db_subnet" ::= VPC("DB Subnet");
          "gke_subnet" ::= VPC("GKE Subnet") ];
        "firewall" ::= FirewallRules("Firewall Rules");
        Cluster "Compute Layer"
        [ "gke_primary" ::= GKE("GKE Cluster");
          "cloud_run_primary" ::= Run("Cloud Run");
          "compute_primary" ::= ComputeEngine("Compute Engine") ];
        Cluster "Database Layer"
        [ "sql_primary" ::= SQL("Cloud SQL" +:+ nl +:+ "(PostgreSQL)");
          "redis_primary" ::= Memorystore("Redis Cache") ];
        Cluster "Storage Layer"
        [ "storage_primary" ::= GCS("Cloud Storage");
          "filestore_primary" ::= Filestore("Filestore") ] ] ];
    Cluster "Secondary Region (us-east1)"
    [ Cluster "VPC Network"
      [ "vpc_secondary" ::= VPC("VPC");
        Cluster "Subnets"
        [ "web_subnet_2" ::= VPC("Web Subnet");
          "app_subnet_2" ::= VPC("App Subnet");
          "db_subnet_2" ::= VPC("DB Subnet");
          "gke_subnet_2" ::= VPC("GKE Subnet") ];
        "firewall_2" ::= FirewallRules("Firewall Rules");
        Cluster "Compute Layer"
        [ "gke_secondary" ::= GKE("GKE Cluster");
          "cloud_run_secondary" ::= Run("Cloud Run");
          "compute_secondary" ::= ComputeEngine("Compute Engine") ];
        Cluster "Database Layer"
        [ "sql_secondary" ::= SQL("Cloud SQL" +:+ nl +:+ "(PostgreSQL)");
          "redis_secondary" ::= Memorystore("Redis Cache") ];
        Cluster "Storage Layer"
        [ "storage_secondary" ::= GCS("Cloud Storage");
          "filestore_secondary" ::= Filestore("Filestore") ] ] ];
    Cluster "Cross-Region Connectivity"
    [ "vpc_peering" ::= VPC("VPC Peering");
      "vpn_tunnel" ::= VPC("VPN Tunnel") ];
    Cluster "Security & Compliance"
    [ "vpc_sc" ::= VPC("VPC Service Controls");
      "binary_auth" ::= Iam("Binary Authorization");
      "workload_identity" ::= Iam("Workload Identity") ];
    "users" >> "internet";
    "internet" >> "dns";
    "dns" >> "lb_global";
    "lb_global" >> "gke_primary";
    "lb_global" >> "gke_secondary";
    "lb_global" >> "cloud_run_primary";
    "lb_global" >> "cloud_run_secondary";
    "gke_primary" >> "sql_primary";
    "gke_primary" >> "redis_primary";
    "gke_primary" >> "storage_primary";
    "cloud_run_primary" >> "sql_primary";
    "cloud_run_primary" >> "redis_primary";
    "compute_primary" >> "sql_primary";
    "compute_primary" >> "storage_primary";
    "gke_secondary" >> "sql_secondary";
    "gke_secondary" >> "redis_secondary";
    "gke_secondary" >> "storage_secondary";
    "cloud_run_secondary" >> "sql_secondary";
    "cloud_run_secondary" >> "redis_secondary";
    "compute_secondary" >> "sql_secondary";
    "compute_secondary" >> "storage_secondary";
    "vpc_primary" >> "vpc_peering";
    "vpc_secondary" >> "vpc_peering";
    "vpc_primary" >> "vpn_tunnel";
    "vpc_secondary" >> "vpn_tunnel";
    "sql_primary" >> "sql_secondary";
    "iam" >> "gke_primary";
    "iam" >> "gke_secondary";
    "iam" >> "cloud_run_primary";
    "iam" >> "cloud_run_secondary";
    "kms" >> "sql_primary";
    "kms" >> "sql_secondary";
    "kms" >> "storage_primary";
    "kms" >> "storage_secondary";
    "monitoring" >> "gke_primary";
    "monitoring" >> "gke_secondary";
    "monitoring" >> "sql_primary";
    "monitoring" >> "sql_secondary";
    "registry" >> "gke_primary";
    "registry" >> "gke_secondary";
    "registry" >> "cloud_run_primary";
    "registry" >> "cloud_run_secondary";
    "vpc_sc" >> "vpc_primary";
    "vpc_sc" >> "vpc_secondary";
    "binary_auth" >> "gke_primary";
    "binary_auth" >> "gke_secondary";
    "workload_identity" >> "gke_primary";
    "workload_identity" >> "gke_secondary" ].

(** Lines 175 to 225. *)
Definition create_simplified_architecture_diagram : M unit :=
  with_Diagram "GCP Infrastructure Overview"
               "gcp_simplified_diagram" false "TB"
  [ "users" ::= Users("Users");
    "internet" ::= Internet("Internet");
    Cluster "Global Services"
    [ "dns" ::= DNS("Cloud DNS");
      "lb" ::= LoadBalancing("Global Load Balancer");
      "iam" ::= Iam("IAM & Security");
      "monitoring" ::= BigQuery("Monitoring & Logging") ];
    Cluster "Multi-Region Deployment"
    [ Cluster ("Primary Region" +:+ nl +:+ "(us-central1)")
      [ "gke_primary" ::= GKE("GKE Cluster");
        "sql_primary" ::= SQL("Cloud SQL");
        "storage_primary" ::= GCS("Cloud Storage") ];
      Cluster ("Secondary Region" +:+ nl +:+ "(us-east1)")
      [ "gke_secondary" ::= GKE("GKE Cluster");
        "sql_secondary" ::= SQL("Cloud SQL");
        "storage_secondary" ::= GCS("Cloud Storage") ] ];
    "vpc_peering" ::= VPC("VPC Peering");
    "users" >> "internet";
    "internet" >> "dns";
    "dns" >> "lb";
    "lb" >> "gke_primary";
    "lb" >> "gke_secondary";
    "gke_primary" >> "sql_primary";
    "gke_primary" >> "storage_primary";
    "gke_secondary" >> "sql_secondary";
    "gke_secondary" >> "storage_secondary";
    "sql_primary" >> "sql_secondary";
    "gke_primary" >> "vpc_peering";
    "gke_secondary" >> "vpc_peering";
    "iam" >> "gke_primary";
    "iam" >> "gke_secondary";
    "monitoring" >> "gke_primary";
    "monitoring" >> "gke_secondary" ].

(** Lines 227 to 244, the body of the [__main__] guard. *)
Definition main : M unit :=
  block
  [ print "Generating GCP architecture diagrams...";
    print "Creating comprehensive architecture diagram...";
    call create_gcp_architecture_diagram;
    print "âœ… Comprehensive diagram saved as 'gcp_architecture_diagram.png'";
    print "Creating simplified architecture diagram...";
    call create_simplified_architecture_diagram;
    print "âœ… Simplified diagram saved as 'gcp_simplified_diagram.png'";
    print (nl +:+ "ğŸ‰ Architecture diagrams generated successfully!");
    print "ğŸ“ Files created:";
    print "   - gcp_architecture_diagram.png (comprehensive view)";
    print "   - gcp_simplified_diagram.png (high-level overview)";
    print (nl +:+ "ğŸ’¡ You can now include these diagrams in your documentation!") ].

End Script.

(** ** Observations on runs and graphs *)

(** The state a run ends in, whether it returned or raised. *)
Definition outcome {A} (r : Result A) : St :=
  match r with
  | Ok _ s => s
  | Raise _ s => s
  end.

Definition no_graph : Diagram := mkDiagram "" "" "" false "" [] [].

(** The graph a builder hands to the engine when [uuid4] yields [u] from
    position [k] on: read off a run that starts with nothing open and an
    engine that accepts. *)
Definition graph_of (f : Host -> M unit) (u : nat -> string) (k : nat)
  : Diagram :=
  default no_graph
    (last (handed (world (outcome
       (f (mkHost u (fun _ => None)) (mkSt ∅ (mkWorld None [] k [] ∅ []))))))).

Definition comprehensive_png : string := "gcp_architecture_diagram.png".
Definition simplified_png : string := "gcp_simplified_diagram.png".

(** The DOT sources the package saves on the way to the two images. *)
Definition comprehensive_dot : string := "gcp_architecture_diagram".
Definition simplified_dot : string := "gcp_simplified_diagram".

(** All nodes of an item, in the order of their declarations. *)
Fixpoint nodes_of (i : Item) : list Node :=
  match i with
  | INode n => [n]
  | ICluster _ body => concat (map nodes_of body)
  end.

Definition nodes_in (l : list Item) : list Node := concat (map nodes_of l).

Definition all_nodes (d : Diagram) : list Node := nodes_in (items d).

Definition idents (d : Diagram) : list string := map ident (all_nodes d).

(** The nodes and the clusters that sit directly in a diagram or cluster. *)
Definition direct_nodes (l : list Item) : list Node :=
  omap (fun i => match i with INode n => Some n | ICluster _ _ => None end) l.

Definition direct_clusters (l : list Item) : list (string * list Item) :=
  omap (fun i => match i with
                 | INode _ => None
                 | ICluster c body => Some (c, body)
                 end) l.

Definition clusters_named (c : string) (l : list Item) : list (list Item) :=
  map snd (filter (fun cb => cb.1 = c) (direct_clusters l)).

(** The body of the first cluster labelled [c]. *)
Definition cluster_body (c : string) (l : list Item) : list Item :=
  default [] (head (clusters_named c l)).

(** What the script says about a node: variable, class and label. *)
Definition describe (n : Node) : string * Category * string :=
  (ident n, category n, label n).

(** A node is external when its class comes from the on-premises modules
    of the package rather than from the cloud provider's. *)
Definition external (n : Node) : Prop := provider (category n) = OnPrem.

#[global] Instance external_dec n : Decision (external n).
Proof. unfold external. apply _. Defined.

(** The structure of a graph: everything but the random identifiers. *)
Definition anon (n : Node) : Node :=
  mkNode "" (ident n) (category n) (label n).

Fixpoint anon_item (i : Item) : Item :=
  match i with
  | INode n => INode (anon n)
  | ICluster c body => ICluster c (map anon_item body)
  end.

Definition anon_edge (e : Edge) : Edge :=
  mkEdge (anon (src e)) (anon (dst e)) (forward e) (reverse e)
         (elabel e) (color e) (style e).

Definition structure (d : Diagram) : Diagram :=
  mkDiagram (name d) (filename d) (direction d) (show d) (outformat d)
            (map anon_item (items d)) (map anon_edge (edges d)).

(** The shape of a cluster body: its tree with, for each node, the class
    and the label, and neither the variable nor the random identifier. *)
Definition faceless (n : Node) : Node :=
  mkNode "" "" (category n) (label n).

Fixpoint skeleton (i : Item) : Item :=
  match i with
  | INode n => INode (faceless n)
  | ICluster c body => ICluster c (map skeleton body)
  end.

(** The classes of the nodes directly in each sub-cluster, outermost
    first. *)
Fixpoint categories_by_cluster (path : list string) (i : Item)
  : list (list string * list Category) :=
  match i with
  | INode _ => []
  | ICluster c body =>
      (path ++ [c], map category (direct_nodes body))
      :: concat (map (categories_by_cluster (path ++ [c])) body)
  end.

(** The edges that stay inside a group of nodes. *)
Definition inside (ns : list Node) (e : Edge) : Prop :=
  ident (src e) ∈ map ident ns ∧ ident (dst e) ∈ map ident ns.

#[global] Instance inside_dec ns e : Decision (inside ns e).
Proof. unfold inside. apply _. Defined.

Definition intra_edges (body : list Item) (es : list Edge) : list Edge :=
  filter (inside (nodes_in body)) es.

(** The ends of an edge by class, and by position among a group's nodes. *)
Definition edge_shape (e : Edge) : Category * Category :=
  (category (src e), category (dst e)).

Definition position (ns : list Node) (x : string) : option nat :=
  fst <$> list_find (fun n => ident n = x) ns.

Definition edge_positions (ns : list Node) (e : Edge)
  : option nat * option nat :=
  (position ns (ident (src e)), position ns (ident (dst e))).

(** An edge as [>>] makes it: directed from left to right, nothing else. *)
Definition plain (e : Edge) : Prop :=
  forward e = true ∧ reverse e = false ∧
  elabel e = "" ∧ color e = "" ∧ style e = "".

#[global] Instance plain_dec e : Decision (plain e).
Proof. unfold plain. apply _. Defined.

(** Both ends of every edge are declared nodes of the same graph. *)
Definition closed_edges (d : Diagram) : Prop :=
  Forall (fun e => ident (src e) ∈ idents d ∧ ident (dst e) ∈ idents d)
         (edges d).

#[global] Instance closed_edges_dec d : Decision (closed_edges d).
Proof. unfold closed_edges. apply _. Defined.

(** How a [with Diagram] block ends once its body has left the world [w]
    with the graph [d]: the DOT source of [d] is saved and the engine is
    given [d].  When the engine accepts, the image is written, the source
    is removed and the diagram context is cleared; when it raises, the
    source stays behind and [d] stays the current diagram. *)
Definition finish (h : Host) (L : gmap string Node) (w : World) (d : Diagram)
  : Result unit :=
  match engine h d with
  | None =>
      Ok tt (mkSt L
               (mkWorld None (ctx_cluster w) (drawn w) (stdout w)
                        (({[ image_of d ]} ∪ ({[ filename d ]} ∪ files w))
                           ∖ {[ filename d ]})
                        (handed w ++ [d])))
  | Some e =>
      Raise e (mkSt L
                 (mkWorld (Some d) (ctx_cluster w) (drawn w) (stdout w)
                          ({[ filename d ]} ∪ files w) (handed w ++ [d])))
  end.

(** The statements a diagram body is made of: declarations, connections
    and cluster blocks of such statements. *)
Inductive Stmt (h : Host) : M unit -> Prop :=
  | Stmt_declare x c l : Stmt h (declare h x c l)
  | Stmt_flow x y : Stmt h (flow x y)
  | Stmt_cluster l body : Suite h body -> Stmt h (Cluster l body)
with Suite (h : Host) : list (M unit) -> Prop :=
  | Suite_nil : Suite h []
  | Suite_cons st rest : Stmt h st -> Suite h rest -> Suite h (st :: rest).

Scheme Stmt_mut := Induction for Stmt Sort Prop
  with Suite_mut := Induction for Suite Sort Prop.
Combined Scheme Stmt_Suite_mut from Stmt_mut, Suite_mut.

(** Hosts and a start state to run the script on. *)
Definition host0 : Host := mkHost (fun n => pretty n) (fun _ => None).

Definition host_down : Host :=
  mkHost (fun n => pretty n) (fun _ => Some (RenderError "dot not found")).

Definition host_half : Host :=
  mkHost (fun n => pretty n)
         (fun d => if bool_decide (filename d = "gcp_simplified_diagram")
                   then Some (RenderError "disk full") else None).

Definition w0 : World := mkWorld None [] 0 [] ∅ [].
Definition s0 : St := mkSt ∅ w0.

(** A working directory in which an earlier run, refused by the engine,
    has left the DOT source of the comprehensive diagram. *)
Definition s_stale : St :=
  mkSt ∅ (mkWorld None [] 0 [] {[ "gcp_architecture_diagram"; "README.md" ]} []).

(** The graphs of the two builders. *)
Definition comprehensive_graph (u : nat -> string) (k : nat) : Diagram :=
  graph_of create_gcp_architecture_diagram u k.

Definition simplified_graph (u : nat -> string) (k : nat) : Diagram :=
  graph_of create_simplified_architecture_diagram u k.

(** A cluster seen from outside: label, nodes directly in it, number of
    clusters directly in it; [kinds] gives the module type of each node
    instead. *)
Definition contents (cb : string * list Item)
  : string * list (string * Category * string) * nat :=
  (cb.1, map describe (direct_nodes cb.2), length (direct_clusters cb.2)).

Definition kinds (cb : string * list Item)
  : string * list ResourceType * nat :=
  (cb.1, map (fun n => resource_type (category n)) (direct_nodes cb.2),
   length (direct_clusters cb.2)).

Definition population (cb : string * list Item) : string * nat :=
  (cb.1, length (nodes_in cb.2)).

(** The lines a complete run prints, in order. *)
Definition transcript : list string :=
  [ "Generating GCP architecture diagrams...";
    "Creating comprehensive architecture diagram...";
    "âœ… Comprehensive diagram saved as 'gcp_architecture_diagram.png'";
    "Creating simplified architecture diagram...";
    "âœ… Simplified diagram saved as 'gcp_simplified_diagram.png'";
    nl +:+ "ğŸ‰ Architecture diagrams generated successfully!";
    "ğŸ“ Files created:";
    "   - gcp_architecture_diagram.png (comprehensive view)";
    "   - gcp_simplified_diagram.png (high-level overview)";
    nl +:+ "ğŸ’¡ You can now include these diagrams in your documentation!" ].

(** What a diagram body leaves alone: the depth of the cluster stack, the
    standard output, the files and the graphs already handed over. *)
Definition same_outside (w w' : World) : Prop :=
  length (ctx_cluster w') = length (ctx_cluster w) ∧
  stdout w' = stdout w ∧ files w' = files w ∧ handed w' = handed w.

(** ** Connections, chains and layers *)

(** A connection by the two variables it names, as the statement
    [x >> y] writes it. *)
Definition ends (e : Edge) : string * string := (ident (src e), ident (dst e)).

Definition arrows (d : Diagram) : list (string * string) := map ends (edges d).

(** A chain of one or more connections that leads from [x] to [y]. *)
Inductive chain (es : list (string * string)) : string -> string -> Prop :=
  | chain_one x y : (x, y) ∈ es -> chain es x y
  | chain_step x y z : (x, y) ∈ es -> chain es y z -> chain es x z.

(** The node a diagram declares under the variable [x]. *)
Definition declared (d : Diagram) (x : string) : option Node :=
  snd <$> list_find (fun n => ident n = x) (all_nodes d).

(** Layers for a drawing from top to bottom: every node starts in layer 0
    and a round of [relax] puts each node one layer below the deepest node
    that points to it. *)
Fixpoint rank_in (r : list (string * nat)) (x : string) : nat :=
  match r with
  | [] => 0
  | (y, n) :: r' => if decide (y = x) then n else rank_in r' x
  end.

Definition relax (es : list (string * string)) (r : list (string * nat))
  : list (string * nat) :=
  map (fun p => (p.1,
         max_list (map (fun a => if decide (a.2 = p.1)
                                 then S (rank_in r a.1) else 0) es))) r.

Definition layers (d : Diagram) : list (string * nat) :=
  Nat.iter (length (idents d)) (relax (arrows d))
           (map (fun x => (x, 0)) (idents d)).

(** A ranking respects the connections when each of them leads to a node
    of a strictly higher rank. *)
Definition respects (r : list (string * nat)) (es : list (string * string))
  : Prop :=
  Forall (fun a => rank_in r a.1 < rank_in r a.2) es.

#[global] Instance respects_dec r es : Decision (respects r es).
Proof. unfold respects. apply _. Defined.

(** The variables reached from a set of variables: one round of [grow]
    adds the targets of the connections that leave the set. *)
Definition grow (es : list (string * string)) (R : list string)
  : list string :=
  R ++ remove_dups
         (filter (fun y => y ∉ R) (map snd (filter (fun a => a.1 ∈ R) es))).

Definition downstream (d : Diagram) (x : string) : list string :=
  tail (Nat.iter (length (idents d)) (grow (arrows d)) [x]).

(** A list of variables that no connection leaves, entered from [x]
    only. *)
Definition closed_from (x : string) (D : list string)
    (es : list (string * string)) : Prop :=
  (x ∉ D) ∧ Forall (fun a => a.1 ∈ x :: D -> a.2 ∈ D) es.

#[global] Instance closed_from_dec x D es : Decision (closed_from x D es).
Proof. unfold closed_from. apply _. Defined.

(** The variables no connection names. *)
Definition unconnected (d : Diagram) : list string :=
  filter (fun x => (x ∉ map fst (arrows d)) ∧ (x ∉ map snd (arrows d)))
         (idents d).

(** The connections with one end in each of two groups of items. *)
Definition crossing (A B : list Item) (es : list Edge) : list Edge :=
  filter (fun e =>
            (ident (src e) ∈ map ident (nodes_in A)
             ∧ ident (dst e) ∈ map ident (nodes_in B))
            ∨ (ident (src e) ∈ map ident (nodes_in B)
               ∧ ident (dst e) ∈ map ident (nodes_in A))) es.

(** The one variable the two builders name differently: the global load
    balancer is [lb] in the simplified builder and [lb_global] in the
    comprehensive one. *)
Definition in_comprehensive (x : string) : string :=
  if decide (x = "lb") then "lb_global" else x.

(** The lines of the transcript that name a written image, each with the
    file it names: the two "saved as" lines (the third and the fifth line
    of the transcript) and the two entries of the closing list of files
    (the eighth and the ninth). *)
Definition announcements : list (string * string) :=
  [ (default "" (transcript !! 2), comprehensive_png);
    (default "" (transcript !! 4), simplified_png);
    (default "" (transcript !! 7), comprehensive_png);
    (default "" (transcript !! 8), simplified_png) ].

(** The message of the exception a constructor raises outside a
    [with Diagram] block. *)
Definition no_context : Exn :=
  EnvironmentError "Global diagrams context not set up".

(** A caller that has a diagram of its own open when it calls a builder. *)
Definition outer_diagram : Diagram :=
  mkDiagram "Outer" "outer" "LR" true "png" [] [].

Definition s_outer : St := mkSt ∅ (mkWorld (Some outer_diagram) [] 0 [] ∅ []).

(** * Running the builders *)

Arguments graph_of : simpl never.
Arguments comprehensive_graph : simpl never.
Arguments simplified_graph : simpl never.

Ltac fields :=
  cbn [locals world ctx_diagram ctx_cluster drawn stdout files handed].

Ltac fields_in H :=
  cbn [locals world ctx_diagram ctx_cluster drawn stdout files handed] in H.

Lemma call_with_Diagram h nm fn sh dir body s w2 d :
  dir ∈ valid_directions ->
  match block body
          (mkSt ∅ (set_ctx_diagram (Some (mkDiagram nm fn dir sh "png" [] []))
                                   (world s))) with
  | Ok _ s2 => world s2 = w2
  | Raise _ _ => False
  end ->
  ctx_diagram w2 = Some d ->
  call (with_Diagram h nm fn sh dir body) s = finish h (locals s) w2 d.
Proof.
  intros Hdir Hbody Hd.
  unfold call, with_Diagram, Diagram_init, bind, with_.
  rewrite bool_decide_eq_true_2 by exact Hdir.
  unfold ret, Diagram_enter, bind, get_world, put_world. simpl.
  unfold set_ctx_diagram in Hbody. simpl in Hbody.
  destruct (block body _) as [[] s2|]; [|done].
  subst w2. destruct s2 as [L2 [cd2 cc2 k2 out2 fs2 hd2]].
  simpl in Hd; subst cd2.
  unfold Diagram_exit, render, os_remove, bind, getdiagram, get_world, ret,
    finish, put_world, raise; simpl.
  destruct (engine h d); reflexivity.
Qed.

(** The file names of the script are all different, and so are the sets
    of files that a render and the removal of its source leave. *)
Lemma names_apart :
  comprehensive_png ≠ comprehensive_dot
  ∧ comprehensive_png ≠ simplified_dot
  ∧ simplified_png ≠ simplified_dot
  ∧ simplified_png ≠ comprehensive_dot.
Proof. repeat split; intros Heq; discriminate Heq. Qed.

Ltac by_membership :=
  apply leibniz_equiv, set_equiv; intros ?;
  repeat (rewrite elem_of_union || rewrite elem_of_difference
          || rewrite elem_of_singleton);
  intuition congruence.

Lemma written_once (p q : string) (F : gset string) :
  p ≠ q -> ({[ p ]} ∪ ({[ q ]} ∪ F)) ∖ {[ q ]} = {[ p ]} ∪ (F ∖ {[ q ]}).
Proof. intros Hpq. by_membership. Qed.

Lemma png_written (p q : string) (F : gset string) :
  p ≠ q -> p ∈ ({[ p ]} ∪ ({[ q ]} ∪ F)) ∖ {[ q ]}.
Proof.
  intros Hpq. rewrite written_once by exact Hpq.
  apply elem_of_union_l, elem_of_singleton. reflexivity.
Qed.

Lemma stays_written (x p q : string) (F : gset string) :
  x ≠ q -> x ∈ F -> x ∈ ({[ p ]} ∪ ({[ q ]} ∪ F)) ∖ {[ q ]}.
Proof.
  intros Hxq Hx. apply elem_of_difference. split.
  - by apply elem_of_union_r, elem_of_union_r.
  - by rewrite elem_of_singleton.
Qed.

Lemma written_twice (p1 p2 q1 q2 : string) (F : gset string) :
  p1 ≠ q1 -> p1 ≠ q2 -> p2 ≠ q2 ->
  ({[ p2 ]} ∪ ({[ q2 ]} ∪ (({[ p1 ]} ∪ ({[ q1 ]} ∪ F)) ∖ {[ q1 ]}))) ∖ {[ q2 ]}
  = {[ p1; p2 ]} ∪ (F ∖ {[ q1; q2 ]}).
Proof. intros H11 H12 H22. by_membership. Qed.

Lemma written_again (p1 p2 q1 q2 : string) (F : gset string) :
  p1 ≠ q1 -> p1 ≠ q2 -> p2 ≠ q2 -> p2 ≠ q1 ->
  {[ p1; p2 ]} ∪ (({[ p1; p2 ]} ∪ (F ∖ {[ q1; q2 ]})) ∖ {[ q1; q2 ]})
  = {[ p1; p2 ]} ∪ (F ∖ {[ q1; q2 ]}).
Proof. intros H11 H12 H22 H21. by_membership. Qed.

Lemma filename_comprehensive u k :
  filename (comprehensive_graph u k) = comprehensive_dot.
Proof. vm_compute. reflexivity. Qed.

Lemma filename_simplified u k :
  filename (simplified_graph u k) = simplified_dot.
Proof. vm_compute. reflexivity. Qed.

Lemma image_of_comprehensive u k :
  image_of (comprehensive_graph u k) = comprehensive_png.
Proof. vm_compute. reflexivity. Qed.

Lemma image_of_simplified u k :
  image_of (simplified_graph u k) = simplified_png.
Proof. vm_compute. reflexivity. Qed.

(** A call of the comprehensive builder, from any state in which no
    cluster is open: 39 identifiers are drawn, the graph goes to the
    engine, and the engine decides between the image and the exception. *)
Lemma call_comprehensive h s :
  ctx_cluster (world s) = [] ->
  call (create_gcp_architecture_diagram h) s =
  finish h (locals s)
    (mkWorld (Some (comprehensive_graph (uuid4 h) (drawn (world s))))
             [] (39 + drawn (world s)) (stdout (world s)) (files (world s))
             (handed (world s)))
    (comprehensive_graph (uuid4 h) (drawn (world s))).
Proof.
  destruct s as [L [cd cc k out fs hd]]; simpl; intros ->.
  unfold create_gcp_architecture_diagram.
  apply call_with_Diagram;
    [ apply list_elem_of_here | vm_compute; reflexivity | reflexivity ].
Qed.

Lemma call_simplified h s :
  ctx_cluster (world s) = [] ->
  call (create_simplified_architecture_diagram h) s =
  finish h (locals s)
    (mkWorld (Some (simplified_graph (uuid4 h) (drawn (world s))))
             [] (13 + drawn (world s)) (stdout (world s)) (files (world s))
             (handed (world s)))
    (simplified_graph (uuid4 h) (drawn (world s))).
Proof.
  destruct s as [L [cd cc k out fs hd]]; simpl; intros ->.
  unfold create_simplified_architecture_diagram.
  apply call_with_Diagram;
    [ apply list_elem_of_here | vm_compute; reflexivity | reflexivity ].
Qed.

(** What [finish] leaves behind. *)
Lemma finish_handed h L w d :
  handed (world (outcome (finish h L w d))) = handed w ++ [d].
Proof. unfold finish. destruct (engine h d); reflexivity. Qed.

Lemma finish_ctx_cluster h L w d :
  ctx_cluster (world (outcome (finish h L w d))) = ctx_cluster w.
Proof. unfold finish. destruct (engine h d); reflexivity. Qed.

Lemma finish_drawn h L w d :
  drawn (world (outcome (finish h L w d))) = drawn w.
Proof. unfold finish. destruct (engine h d); reflexivity. Qed.

Lemma finish_locals h L w d : locals (outcome (finish h L w d)) = L.
Proof. unfold finish. destruct (engine h d); reflexivity. Qed.

(** * The graphs *)

(** C1. Building the simplified diagram yields exactly two top-level
    external nodes, Users and Internet; a cluster "Global Services" with
    exactly four nodes (DNS, load balancer, IAM, monitoring) and no
    sub-cluster; and a cluster "Multi-Region Deployment" with no node of
    its own and exactly two sub-clusters, each holding exactly one compute,
    one database and one storage node, six region-scoped nodes in all.
    The one other top-level node, the VPC peering node, is a cloud network
    node and not an external one. *)
Theorem simplified_scenario (u : nat -> string) (k : nat) :
  let d := simplified_graph u k in
  let regions := cluster_body "Multi-Region Deployment" (items d) in
  map describe (filter external (direct_nodes (items d)))
    = [("users", Users, "Users"); ("internet", Internet, "Internet")]
  ∧ map contents (direct_clusters (items d))
    = [("Global Services",
        [("dns", DNS, "Cloud DNS");
         ("lb", LoadBalancing, "Global Load Balancer");
         ("iam", Iam, "IAM & Security");
         ("monitoring", BigQuery, "Monitoring & Logging")], 0);
       ("Multi-Region Deployment", [], 2)]
  ∧ map kinds (direct_clusters regions)
    = [("Primary Region" +:+ nl +:+ "(us-central1)",
        [Compute; Database; Storage], 0);
       ("Secondary Region" +:+ nl +:+ "(us-east1)",
        [Compute; Database; Storage], 0)]
  ∧ length (nodes_in regions) = 6
  ∧ map describe (filter (fun n => ¬ external n) (direct_nodes (items d)))
    = [("vpc_peering", VPC, "VPC Peering")].
Proof. repeat split; vm_compute; reflexivity. Qed.

(** C2. In the comprehensive diagram the primary-region cluster and the
    secondary-region cluster are symmetric: the same tree of sub-clusters
    with the same node classes in each, and the same edges inside the
    region, by class and by position of their ends; the variables of the
    two regions are all different. *)
Theorem regions_symmetric (u : nat -> string) (k : nat) :
  let d := comprehensive_graph u k in
  let P := cluster_body "Primary Region (us-central1)" (items d) in
  let S := cluster_body "Secondary Region (us-east1)" (items d) in
  length (clusters_named "Primary Region (us-central1)" (items d)) = 1
  ∧ length (clusters_named "Secondary Region (us-east1)" (items d)) = 1
  ∧ map skeleton P = map skeleton S
  ∧ concat (map (categories_by_cluster []) P)
    = [ (["VPC Network"], [VPC; FirewallRules]);
        (["VPC Network"; "Subnets"], [VPC; VPC; VPC; VPC]);
        (["VPC Network"; "Compute Layer"], [GKE; Run; ComputeEngine]);
        (["VPC Network"; "Database Layer"], [SQL; Memorystore]);
        (["VPC Network"; "Storage Layer"], [GCS; Filestore]) ]
  ∧ concat (map (categories_by_cluster []) S)
    = concat (map (categories_by_cluster []) P)
  ∧ map edge_shape (intra_edges P (edges d))
    = [ (GKE, SQL); (GKE, Memorystore); (GKE, GCS); (Run, SQL);
        (Run, Memorystore); (ComputeEngine, SQL); (ComputeEngine, GCS) ]
  ∧ map edge_shape (intra_edges S (edges d))
    = map edge_shape (intra_edges P (edges d))
  ∧ map (edge_positions (nodes_in S)) (intra_edges S (edges d))
    = map (edge_positions (nodes_in P)) (intra_edges P (edges d))
  ∧ Forall (fun x => x ∉ map ident (nodes_in S)) (map ident (nodes_in P)).
Proof.
  repeat split; try (vm_compute; reflexivity).
  apply (bool_decide_eq_true_1 _). vm_compute. reflexivity.
Qed.

(** C4. In each of the two diagrams, both ends of every edge are
    identifiers of nodes declared in that diagram. *)
Theorem edges_refer_to_declared_nodes (u : nat -> string) (k : nat) :
  closed_edges (comprehensive_graph u k)
  ∧ closed_edges (simplified_graph u k)
  ∧ length (edges (comprehensive_graph u k)) = 48
  ∧ length (edges (simplified_graph u k)) = 16.
Proof.
  repeat split; try (vm_compute; reflexivity);
    apply (bool_decide_eq_true_1 _); vm_compute; reflexivity.
Qed.

(** C5. Within each diagram no two declared nodes share an identifier:
    the 39 and the 13 variables the nodes are bound to are all different.
    The identifiers the package draws for them are the 39 and the 13
    consecutive values of [uuid4], different as long as [uuid4] does not
    repeat itself. *)
Theorem node_identifiers_unique (u : nat -> string) (k : nat) :
  NoDup (idents (comprehensive_graph u k))
  ∧ NoDup (idents (simplified_graph u k))
  ∧ length (idents (comprehensive_graph u k)) = 39
  ∧ length (idents (simplified_graph u k)) = 13
  ∧ map uid (all_nodes (comprehensive_graph u k)) = map u (seq k 39)
  ∧ map uid (all_nodes (simplified_graph u k)) = map u (seq k 13).
Proof.
  repeat split; try (vm_compute; reflexivity);
    apply (bool_decide_eq_true_1 _); vm_compute; reflexivity.
Qed.

(** C10. Every edge of both diagrams is a plain directed connector, with
    no label, colour or style; both diagrams are built with [show=False]
    and the direction "TB". *)
Theorem edges_plain_and_display_off (u : nat -> string) (k : nat) :
  Forall plain (edges (comprehensive_graph u k))
  ∧ Forall plain (edges (simplified_graph u k))
  ∧ show (comprehensive_graph u k) = false
  ∧ show (simplified_graph u k) = false
  ∧ direction (comprehensive_graph u k) = "TB"
  ∧ direction (simplified_graph u k) = "TB".
Proof.
  repeat split; try (vm_compute; reflexivity);
    apply (bool_decide_eq_true_1 _); vm_compute; reflexivity.
Qed.

(** * What a diagram body can touch *)

Lemma same_outside_refl w : same_outside w w.
Proof. by repeat split. Qed.

Lemma same_outside_trans w1 w2 w3 :
  same_outside w1 w2 -> same_outside w2 w3 -> same_outside w1 w3.
Proof.
  unfold same_outside. intros (?&?&?&?) (?&?&?&?).
  repeat split; congruence.
Qed.

Lemma add_item_outside i s :
  same_outside (world s) (world (outcome (add_item i s))).
Proof.
  destruct s as [L [[d|] [|c cc] k out fs hd]];
    by repeat split.
Qed.

Lemma declare_outside h x c l s :
  same_outside (world s) (world (outcome (declare h x c l s))).
Proof.
  destruct s as [L [[d|] [|o cc] k out fs hd]];
    by repeat split.
Qed.

Lemma flow_outside x y s :
  same_outside (world s) (world (outcome (flow x y s))).
Proof.
  destruct s as [L [[d|] cc k out fs hd]];
    unfold flow, load, bind; simpl;
    destruct (L !! x); simpl; try (by repeat split);
    destruct (L !! y); simpl; by repeat split.
Qed.

Lemma Cluster_exit_outside s :
  same_outside (set_ctx_cluster (tail (ctx_cluster (world s))) (world s))
               (world (outcome (Cluster_exit s))) .
Proof.
  destruct s as [L [[d|] [|o [|o' cc]] k out fs hd]];
    by repeat split.
Qed.

Lemma body_outside h :
  (forall st, Stmt h st ->
     forall s, same_outside (world s) (world (outcome (st s))))
  ∧ (forall body, Suite h body ->
     forall s, same_outside (world s) (world (outcome (block body s)))).
Proof.
  apply Stmt_Suite_mut.
  - intros. apply declare_outside.
  - intros. apply flow_outside.
  - intros l body _ IH s.
    unfold Cluster, with_.
    destruct (Cluster_enter l s) as [[] s1|e s1] eqn:Henter.
    + assert (Hs1 : world s1 = set_ctx_cluster (mkOpen l [] :: ctx_cluster (world s)) (world s)).
      { destruct s as [L [[d|] cc k out fs hd]]; inversion Henter; done. }
      specialize (IH s1).
      assert (Hout : forall s2, same_outside (world s1) (world s2) ->
                same_outside (world s) (world (outcome (Cluster_exit s2)))).
      { intros s2 H12.
        eapply same_outside_trans; [|apply Cluster_exit_outside].
        rewrite Hs1 in H12. destruct H12 as (Hlen & ? & ? & ?).
        destruct (world s2) as [d2 cc2 k2 out2 fs2 hd2]; simpl in *.
        destruct cc2; simpl in *; [done|].
        repeat split; simpl; congruence. }
      destruct (block body s1) as [[] s2|e s2]; simpl in IH.
      * apply Hout, IH.
      * specialize (Hout s2 IH).
        destruct (Cluster_exit s2); exact Hout.
    + destruct s as [L [[d|] cc k out fs hd]]; inversion Henter.
      apply same_outside_refl.
  - intros s. apply same_outside_refl.
  - intros st rest _ IHst _ IHrest s.
    simpl. unfold bind.
    specialize (IHst s).
    destruct (st s) as [[] s1|e s1]; simpl in *; [|done].
    eapply same_outside_trans; [exact IHst|apply IHrest].
Qed.

(** Whatever a [with Diagram] block declares, it ends with as many open
    clusters as it started with. *)
Lemma with_Diagram_cluster_depth h nm fn sh dir body s :
  Suite h body ->
  length (ctx_cluster (world (outcome (call (with_Diagram h nm fn sh dir body) s))))
  = length (ctx_cluster (world s)).
Proof.
  intros Hbody.
  unfold call, with_Diagram, Diagram_init, bind.
  case_bool_decide; [|reflexivity].
  unfold ret, with_.
  set (s1 := mkSt ∅ (world s)).
  destruct (Diagram_enter _ s1) as [[] s2|e s2] eqn:Henter;
    [|inversion Henter].
  assert (Hs2 : ctx_cluster (world s2) = ctx_cluster (world s))
    by (inversion Henter; reflexivity).
  pose proof (proj2 (body_outside h) body Hbody s2) as (Hlen & _).
  rewrite Hs2 in Hlen.
  assert (Hexit : forall s3,
    length (ctx_cluster (world (outcome (Diagram_exit h s3))))
    = length (ctx_cluster (world s3))).
  { intros [L3 [[d|] cc k out fs hd]]; [|reflexivity].
    unfold Diagram_exit, render, bind, getdiagram, get_world, ret,
      put_world, raise; simpl.
    destruct (engine h d); reflexivity. }
  destruct (block body s2) as [[] s3|e s3]; simpl in Hlen.
  - specialize (Hexit s3).
    destruct (Diagram_exit h s3); simpl in *; congruence.
  - specialize (Hexit s3).
    destruct (Diagram_exit h s3); simpl in *; congruence.
Qed.

Lemma with_Diagram_leaves_no_cluster h nm fn sh dir body s :
  Suite h body ->
  ctx_cluster (world s) = [] ->
  ctx_cluster (world (outcome (call (with_Diagram h nm fn sh dir body) s))) = [].
Proof.
  intros Hbody Hs.
  apply length_zero_iff_nil.
  rewrite (with_Diagram_cluster_depth h nm fn sh dir body s Hbody), Hs.
  reflexivity.
Qed.

Lemma structure_comprehensive u k u' k' :
  structure (comprehensive_graph u k) = structure (comprehensive_graph u' k').
Proof. vm_compute. reflexivity. Qed.

Lemma structure_simplified u k u' k' :
  structure (simplified_graph u k) = structure (simplified_graph u' k').
Proof. vm_compute. reflexivity. Qed.

Lemma call_comprehensive_handed h s :
  ctx_cluster (world s) = [] ->
  handed (world (outcome (call (create_gcp_architecture_diagram h) s)))
  = handed (world s) ++ [comprehensive_graph (uuid4 h) (drawn (world s))].
Proof.
  intros Hs. rewrite call_comprehensive by done.
  rewrite finish_handed. reflexivity.
Qed.

Lemma call_simplified_handed h s :
  ctx_cluster (world s) = [] ->
  handed (world (outcome (call (create_simplified_architecture_diagram h) s)))
  = handed (world s) ++ [simplified_graph (uuid4 h) (drawn (world s))].
Proof.
  intros Hs. rewrite call_simplified by done.
  rewrite finish_handed. reflexivity.
Qed.

Lemma call_comprehensive_leaves_no_cluster h s :
  ctx_cluster (world s) = [] ->
  ctx_cluster (world (outcome (call (create_gcp_architecture_diagram h) s)))
  = [].
Proof.
  intros Hs. rewrite call_comprehensive by done.
  rewrite finish_ctx_cluster. reflexivity.
Qed.

Lemma call_simplified_leaves_no_cluster h s :
  ctx_cluster (world s) = [] ->
  ctx_cluster
    (world (outcome (call (create_simplified_architecture_diagram h) s)))
  = [].
Proof.
  intros Hs. rewrite call_simplified by done.
  rewrite finish_ctx_cluster. reflexivity.
Qed.

(** * The builders *)

(** C3. The comprehensive builder takes no argument.  Called with no
    cluster open, it declares 39 nodes: two at the top, 6 in the global
    cluster, 13 in each of the two region clusters, 2 in the cross-region
    cluster and 3 in the security cluster; it declares 48 edges; and it
    gives the graph to the engine, once, for the image
    gcp_architecture_diagram.png.  On the way the package saves the DOT
    source of the graph as gcp_architecture_diagram: when the engine
    accepts, the image is there and the source is removed again; when the
    engine raises, the source is what the call leaves behind. *)
Theorem build_comprehensive (h : Host) (s : St) :
  ctx_cluster (world s) = [] ->
  let d := comprehensive_graph (uuid4 h) (drawn (world s)) in
  let s' := outcome (call (create_gcp_architecture_diagram h) s) in
  call (create_gcp_architecture_diagram h) s
  = finish h (locals s)
      (mkWorld (Some d) [] (39 + drawn (world s)) (stdout (world s))
               (files (world s)) (handed (world s))) d
  ∧ image_of d = "gcp_architecture_diagram.png"
  ∧ filename d = "gcp_architecture_diagram"
  ∧ handed (world s') = handed (world s) ++ [d]
  ∧ files (world s')
    = match engine h d with
      | None =>
          {[ "gcp_architecture_diagram.png" ]}
            ∪ (files (world s) ∖ {[ "gcp_architecture_diagram" ]})
      | Some _ => {[ "gcp_architecture_diagram" ]} ∪ files (world s)
      end
  ∧ length (all_nodes d) = 39
  ∧ length (direct_nodes (items d)) = 2
  ∧ map population (direct_clusters (items d))
    = [ ("Global Resources", 6);
        ("Primary Region (us-central1)", 13);
        ("Secondary Region (us-east1)", 13);
        ("Cross-Region Connectivity", 2);
        ("Security & Compliance", 3) ]
  ∧ length (edges d) = 48.
Proof.
  intros Hs d s'.
  split; [exact (call_comprehensive h s Hs)|].
  split; [exact (image_of_comprehensive _ _)|].
  split; [exact (filename_comprehensive _ _)|].
  split; [exact (call_comprehensive_handed h s Hs)|].
  split.
  { subst s'. rewrite (call_comprehensive h s Hs). fold d.
    unfold finish. fields.
    rewrite (image_of_comprehensive _ _ : image_of d = _).
    rewrite (filename_comprehensive _ _ : filename d = _).
    destruct (engine h d); fields; [reflexivity|].
    apply written_once, names_apart. }
  subst d. repeat split; vm_compute; reflexivity.
Qed.

Lemma build_comprehensive_witness :
  ctx_cluster (world s0) = []
  ∧ image_of (comprehensive_graph (uuid4 host0) (drawn (world s0)))
    = "gcp_architecture_diagram.png".
Proof.
  split; [reflexivity|].
  exact (proj1 (proj2 (build_comprehensive host0 s0 eq_refl))).
Defined.

(** C6. Two runs of a builder, whatever the hosts and the states they
    start from, hand over graphs of the same structure: the same nodes,
    the same cluster tree and the same edges.  A run leaves no cluster
    open, so the second run may start where the first one ended. *)
Theorem builds_are_repeatable (h h' : Host) (s s' : St) :
  ctx_cluster (world s) = [] ->
  ctx_cluster (world s') = [] ->
  (exists d d',
     handed (world (outcome (call (create_gcp_architecture_diagram h) s)))
       = handed (world s) ++ [d]
     ∧ handed (world (outcome (call (create_gcp_architecture_diagram h') s')))
       = handed (world s') ++ [d']
     ∧ structure d = structure d')
  ∧ (exists d d',
     handed (world (outcome
       (call (create_simplified_architecture_diagram h) s)))
       = handed (world s) ++ [d]
     ∧ handed (world (outcome
       (call (create_simplified_architecture_diagram h') s')))
       = handed (world s') ++ [d']
     ∧ structure d = structure d')
  ∧ ctx_cluster (world (outcome (call (create_gcp_architecture_diagram h) s)))
    = []
  ∧ ctx_cluster
      (world (outcome (call (create_simplified_architecture_diagram h) s)))
    = [].
Proof.
  intros Hs Hs'. repeat split.
  - do 2 eexists. split; [exact (call_comprehensive_handed h s Hs)|].
    split; [exact (call_comprehensive_handed h' s' Hs')|].
    apply structure_comprehensive.
  - do 2 eexists. split; [exact (call_simplified_handed h s Hs)|].
    split; [exact (call_simplified_handed h' s' Hs')|].
    apply structure_simplified.
  - exact (call_comprehensive_leaves_no_cluster h s Hs).
  - exact (call_simplified_leaves_no_cluster h s Hs).
Qed.

Lemma builds_are_repeatable_witness :
  exists d d',
    handed (world (outcome (call (create_gcp_architecture_diagram host0) s0)))
      = handed (world s0) ++ [d]
    ∧ handed (world (outcome (call (create_gcp_architecture_diagram host_down)
         (outcome (call (create_gcp_architecture_diagram host0) s0)))))
      = handed (world (outcome
          (call (create_gcp_architecture_diagram host0) s0))) ++ [d']
    ∧ structure d = structure d'.
Proof.
  refine (proj1 (builds_are_repeatable host0 host_down s0
            (outcome (call (create_gcp_architecture_diagram host0) s0))
            eq_refl _)).
  vm_compute. reflexivity.
Defined.

(** C7. The two builders are independent.  Let the other builder be any
    [with Diagram] block at all, with any header and any body of
    declarations, connections and clusters: called after it, each builder
    of the script hands over a graph of the structure it hands over when
    called alone, for the same image file.  Nothing is shared but the
    package's context, which every block leaves as it found it. *)
Theorem builders_independent (h : Host) (nm fn : string) (sh : bool)
    (dir : string) (body : list (M unit)) (s : St) :
  Suite h body ->
  ctx_cluster (world s) = [] ->
  let s1 := outcome (call (with_Diagram h nm fn sh dir body) s) in
  (exists d,
     call (create_simplified_architecture_diagram h) s1
     = finish h (locals s1)
         (mkWorld (Some d) [] (13 + drawn (world s1)) (stdout (world s1))
                  (files (world s1)) (handed (world s1))) d
     ∧ structure d = structure (simplified_graph (uuid4 h) (drawn (world s)))
     ∧ image_of d = simplified_png)
  ∧ (exists d,
     call (create_gcp_architecture_diagram h) s1
     = finish h (locals s1)
         (mkWorld (Some d) [] (39 + drawn (world s1)) (stdout (world s1))
                  (files (world s1)) (handed (world s1))) d
     ∧ structure d
       = structure (comprehensive_graph (uuid4 h) (drawn (world s)))
     ∧ image_of d = comprehensive_png)
  ∧ locals s1 = locals s.
Proof.
  intros Hbody Hs s1.
  assert (Hs1 : ctx_cluster (world s1) = [])
    by exact (with_Diagram_leaves_no_cluster h nm fn sh dir body s Hbody Hs).
  split; [|split].
  - eexists. split; [exact (call_simplified h s1 Hs1)|].
    split; [apply structure_simplified|apply image_of_simplified].
  - eexists. split; [exact (call_comprehensive h s1 Hs1)|].
    split; [apply structure_comprehensive|apply image_of_comprehensive].
  - subst s1. unfold call.
    destruct (with_Diagram h nm fn sh dir body _); reflexivity.
Qed.

Lemma builders_independent_witness :
  locals (outcome (call (with_Diagram host0 "Other" "other" true "LR"
                           [ declare host0 "x" VPC "X";
                             Cluster "C" [ declare host0 "y" GCS "Y" ];
                             flow "x" "y" ]) s0))
  = locals s0.
Proof.
  refine (proj2 (proj2 (builders_independent host0 "Other" "other" true "LR"
           [ declare host0 "x" VPC "X";
             Cluster "C" [ declare host0 "y" GCS "Y" ];
             flow "x" "y" ] s0 _ eq_refl))).
  repeat constructor.
Defined.

(** * The script as a whole *)

Lemma block_cons st rest s :
  block (st :: rest) s
  = match st s with
    | Ok _ s' => block rest s'
    | Raise e s' => Raise e s'
    end.
Proof. reflexivity. Qed.

Lemma print_run line s :
  print line s
  = Ok tt (mkSt (locals s)
             (mkWorld (ctx_diagram (world s)) (ctx_cluster (world s))
                      (drawn (world s)) (stdout (world s) ++ [line])
                      (files (world s)) (handed (world s)))).
Proof. reflexivity. Qed.

Ltac run_print := rewrite block_cons, print_run; fields.

(** The three ways a run of the script can go. *)
Lemma main_run h s :
  ctx_cluster (world s) = [] ->
  main h s =
  let k := drawn (world s) in
  let d1 := comprehensive_graph (uuid4 h) k in
  let d2 := simplified_graph (uuid4 h) (39 + k) in
  let F1 := ({[ comprehensive_png ]}
               ∪ ({[ comprehensive_dot ]} ∪ files (world s)))
              ∖ {[ comprehensive_dot ]} in
  match engine h d1 with
  | Some e =>
      Raise e (mkSt (locals s)
                 (mkWorld (Some d1) [] (39 + k)
                          (stdout (world s) ++ take 2 transcript)
                          ({[ comprehensive_dot ]} ∪ files (world s))
                          (handed (world s) ++ [d1])))
  | None =>
      match engine h d2 with
      | Some e =>
          Raise e (mkSt (locals s)
                     (mkWorld (Some d2) [] (13 + (39 + k))
                              (stdout (world s) ++ take 4 transcript)
                              ({[ simplified_dot ]} ∪ F1)
                              (handed (world s) ++ [d1; d2])))
      | None =>
          Ok tt (mkSt (locals s)
                   (mkWorld None [] (13 + (39 + k))
                            (stdout (world s) ++ transcript)
                            (({[ simplified_png ]}
                                ∪ ({[ simplified_dot ]} ∪ F1))
                               ∖ {[ simplified_dot ]})
                            (handed (world s) ++ [d1; d2])))
      end
  end.
Proof.
  destruct s as [L [cd cc k out fs hd]]; fields; intros ->.
  cbv zeta. unfold main.
  do 2 run_print.
  rewrite block_cons, call_comprehensive by reflexivity.
  unfold finish; fields.
  rewrite image_of_comprehensive, filename_comprehensive.
  destruct (engine h (comprehensive_graph (uuid4 h) k)) as [e|].
  { rewrite <- !app_assoc. reflexivity. }
  do 2 run_print.
  rewrite block_cons, call_simplified by reflexivity.
  unfold finish; fields.
  rewrite image_of_simplified, filename_simplified.
  destruct (engine h (simplified_graph (uuid4 h) (39 + k))) as [e|].
  { rewrite <- !app_assoc. reflexivity. }
  do 6 run_print.
  rewrite <- !app_assoc. reflexivity.
Qed.

(** C8. A successful run of the script writes two image files,
    gcp_architecture_diagram.png and gcp_simplified_diagram.png, and leaves
    nothing else behind.  The DOT sources that the package saves on the
    way, gcp_architecture_diagram and gcp_simplified_diagram, are removed
    again, and with them whatever file of such a name the directory held
    before; every other file is as it was.  The package's context is
    cleared and the caller's variables are untouched.  On the way the
    script prints the ten lines of the transcript and gives the engine two
    graphs. *)
Theorem successful_run_writes_two_images (h : Host) (s s' : St) :
  ctx_cluster (world s) = [] ->
  main h s = Ok tt s' ->
  files (world s')
  = {[ "gcp_architecture_diagram.png"; "gcp_simplified_diagram.png" ]}
      ∪ (files (world s)
           ∖ {[ "gcp_architecture_diagram"; "gcp_simplified_diagram" ]})
  ∧ ("gcp_architecture_diagram" ∉ files (world s'))
  ∧ ("gcp_simplified_diagram" ∉ files (world s'))
  ∧ "gcp_architecture_diagram.png" ≠ "gcp_simplified_diagram.png"
  ∧ ctx_diagram (world s') = None
  ∧ ctx_cluster (world s') = []
  ∧ locals s' = locals s
  ∧ stdout (world s') = stdout (world s) ++ transcript
  ∧ length (handed (world s')) = length (handed (world s)) + 2.
Proof.
  intros Hs Hrun. rewrite (main_run h s Hs) in Hrun. cbv zeta in Hrun.
  destruct (engine h (comprehensive_graph _ _)); [done|].
  destruct (engine h (simplified_graph _ _)); [done|].
  injection Hrun as <-. fields.
  assert (Hfiles :
    ({[ simplified_png ]}
       ∪ ({[ simplified_dot ]}
            ∪ ({[ comprehensive_png ]}
                 ∪ ({[ comprehensive_dot ]} ∪ files (world s)))
              ∖ {[ comprehensive_dot ]})) ∖ {[ simplified_dot ]}
    = {[ "gcp_architecture_diagram.png"; "gcp_simplified_diagram.png" ]}
        ∪ (files (world s)
             ∖ {[ "gcp_architecture_diagram"; "gcp_simplified_diagram" ]})).
  { apply written_twice; apply names_apart. }
  rewrite Hfiles.
  split; [reflexivity|].
  split.
  { rewrite elem_of_union, elem_of_difference, !elem_of_union,
      !elem_of_singleton. intuition discriminate. }
  split.
  { rewrite elem_of_union, elem_of_difference, !elem_of_union,
      !elem_of_singleton. intuition discriminate. }
  repeat split; try done.
  rewrite length_app. reflexivity.
Qed.

Lemma successful_run_writes_two_images_witness :
  files (world (outcome (main host0 s_stale)))
  = {[ "gcp_architecture_diagram.png"; "gcp_simplified_diagram.png" ]}
      ∪ (files (world s_stale)
           ∖ {[ "gcp_architecture_diagram"; "gcp_simplified_diagram" ]}).
Proof.
  refine (proj1 (successful_run_writes_two_images host0 s_stale
                   (outcome (main host0 s_stale)) eq_refl _)).
  vm_compute. reflexivity.
Defined.



(** * The connections as a graph *)

Lemma chain_snoc es x y z : chain es x y -> (y, z) ∈ es -> chain es x z.
Proof.
  induction 1 as [x y Hxy|x y w Hxy _ IH]; intros Hz.
  - eapply chain_step; [exact Hxy|]. by apply chain_one.
  - eapply chain_step; [exact Hxy|]. by apply IH.
Qed.

(** Along a chain a ranking that every connection respects goes up. *)
Lemma chain_rank es (r : string -> nat) :
  Forall (fun a => r a.1 < r a.2) es ->
  forall x y, chain es x y -> r x < r y.
Proof.
  intros Hes x y. rewrite Forall_forall in Hes.
  induction 1 as [x y Hxy|x y z Hxy _ IH].
  - exact (Hes _ Hxy).
  - pose proof (Hes _ Hxy) as Hlt. simpl in Hlt. lia.
Qed.

Lemma chain_irrefl es (r : string -> nat) :
  Forall (fun a => r a.1 < r a.2) es -> forall x, ¬ chain es x x.
Proof.
  intros Hes x Hx. pose proof (chain_rank es r Hes x x Hx). lia.
Qed.

Lemma grow_sound es x n y :
  y ∈ Nat.iter n (grow es) [x] -> y = x ∨ chain es x y.
Proof.
  revert y. induction n as [|n IH]; intros y Hy.
  - left. by apply list_elem_of_singleton in Hy.
  - simpl in Hy. unfold grow at 1 in Hy.
    apply elem_of_app in Hy as [Hy|Hy]; [by apply IH|].
    apply elem_of_remove_dups, list_elem_of_filter in Hy as [_ Hy].
    apply list_elem_of_fmap in Hy as ([a b] & -> & Hab).
    apply list_elem_of_filter in Hab as [Ha Hab]. simpl in *.
    right. destruct (IH a Ha) as [->|Hchain].
    + by apply chain_one.
    + by eapply chain_snoc.
Qed.

Lemma Forall_fmap_eq {A B} (f g : A -> B) (l : list A) :
  map f l = map g l -> Forall (fun x => f x = g x) l.
Proof.
  induction l as [|x l IH]; intros Heq; [constructor|].
  injection Heq as Hx Hl. constructor; [exact Hx|by apply IH].
Qed.

Lemma declared_elem_of d x n : declared d x = Some n -> n ∈ all_nodes d.
Proof.
  unfold declared. intros Hn.
  apply fmap_Some in Hn as ([i n'] & Hfind & ->).
  apply list_find_Some in Hfind as (Hi & _).
  by eapply list_elem_of_lookup_2.
Qed.

Ltac by_running := vm_compute; reflexivity.
Ltac by_deciding := apply (bool_decide_eq_true_1 _); vm_compute; reflexivity.

Lemma layers_comprehensive u k :
  respects (layers (comprehensive_graph u k)) (arrows (comprehensive_graph u k)).
Proof. by_deciding. Qed.

Lemma layers_simplified u k :
  respects (layers (simplified_graph u k)) (arrows (simplified_graph u k)).
Proof. by_deciding. Qed.

(** X1. In both diagrams the connections form a simple directed acyclic
    graph: no chain of connections comes back to the node it left, so no
    node is connected to itself and no two nodes are connected in both
    directions; every connection leads from a layer to a strictly deeper
    one, the deepest being layer 6; and no connection is declared twice. *)
Theorem connections_form_a_dag (u : nat -> string) (k : nat) :
  let dc := comprehensive_graph u k in
  let ds := simplified_graph u k in
  (forall x, ¬ chain (arrows dc) x x)
  ∧ (forall x, ¬ chain (arrows ds) x x)
  ∧ respects (layers dc) (arrows dc)
  ∧ respects (layers ds) (arrows ds)
  ∧ max_list (map snd (layers dc)) = 6
  ∧ max_list (map snd (layers ds)) = 6
  ∧ NoDup (arrows dc)
  ∧ NoDup (arrows ds).
Proof.
  intros dc ds. subst dc ds.
  split; [exact (chain_irrefl _ _ (layers_comprehensive u k))|].
  split; [exact (chain_irrefl _ _ (layers_simplified u k))|].
  split; [exact (layers_comprehensive u k)|].
  split; [exact (layers_simplified u k)|].
  split; [by_running|]. split; [by_running|].
  split; by_deciding.
Qed.

Lemma downstream_comprehensive u k :
  downstream (comprehensive_graph u k) "users"
  = [ "internet"; "dns"; "lb_global"; "gke_primary"; "gke_secondary";
      "cloud_run_primary"; "cloud_run_secondary"; "storage_primary";
      "sql_primary"; "redis_primary"; "storage_secondary"; "sql_secondary";
      "redis_secondary" ].
Proof. by_running. Qed.

Lemma downstream_simplified u k :
  downstream (simplified_graph u k) "users"
  = [ "internet"; "dns"; "lb"; "gke_primary"; "gke_secondary";
      "sql_primary"; "storage_primary"; "sql_secondary";
      "storage_secondary"; "vpc_peering" ].
Proof. by_running. Qed.

(** What [downstream] computes is what chains of connections reach, as
    soon as the computed list is closed under the connections and does not
    hold the start. *)
Lemma downstream_chain d x y :
  closed_from x (downstream d x) (arrows d) ->
  chain (arrows d) x y <-> y ∈ downstream d x.
Proof.
  intros [Hx Hclosed]. split.
  - intros Hchain. rewrite Forall_forall in Hclosed.
    assert (Hgen : forall x', chain (arrows d) x' y ->
                     x' ∈ x :: downstream d x -> y ∈ downstream d x).
    { clear Hchain. intros x'.
      induction 1 as [x' y Hxy|x' y' z Hxy _ IH]; intros Hx'.
      - exact (Hclosed _ Hxy Hx').
      - apply IH. apply list_elem_of_further. exact (Hclosed _ Hxy Hx'). }
    apply (Hgen x Hchain). apply list_elem_of_here.
  - intros Hy.
    assert (Hin : y ∈ Nat.iter (length (idents d)) (grow (arrows d)) [x]).
    { unfold downstream in Hy.
      destruct (Nat.iter _ _ _); [by apply elem_of_nil in Hy|].
      by apply list_elem_of_further. }
    apply grow_sound in Hin as [->|Hchain]; [done|exact Hchain].
Qed.

(** X2. The nodes a request of the users can reach.  In the comprehensive
    diagram a chain of connections leads from [users] to exactly thirteen
    nodes: the internet, the DNS, the global load balancer and, in each
    region, the GKE cluster, Cloud Run, Cloud SQL, the Redis cache and
    Cloud Storage; no chain leads to a Compute Engine node.  In the
    simplified diagram it leads to ten of the thirteen nodes: all but
    [users] itself, [iam] and [monitoring]. *)
Theorem reached_from_users (u : nat -> string) (k : nat) (y : string) :
  (chain (arrows (comprehensive_graph u k)) "users" y
   <-> y ∈ [ "internet"; "dns"; "lb_global"; "gke_primary"; "gke_secondary";
            "cloud_run_primary"; "cloud_run_secondary"; "storage_primary";
            "sql_primary"; "redis_primary"; "storage_secondary";
            "sql_secondary"; "redis_secondary" ])
  ∧ (chain (arrows (simplified_graph u k)) "users" y
     <-> y ∈ [ "internet"; "dns"; "lb"; "gke_primary"; "gke_secondary";
              "sql_primary"; "storage_primary"; "sql_secondary";
              "storage_secondary"; "vpc_peering" ])
  ∧ ¬ chain (arrows (comprehensive_graph u k)) "users" "compute_primary"
  ∧ ¬ chain (arrows (comprehensive_graph u k)) "users" "compute_secondary".
Proof.
  assert (Hc : forall z, chain (arrows (comprehensive_graph u k)) "users" z
                 <-> z ∈ downstream (comprehensive_graph u k) "users")
    by (intros z; apply downstream_chain; by_deciding).
  assert (Hs : forall z, chain (arrows (simplified_graph u k)) "users" z
                 <-> z ∈ downstream (simplified_graph u k) "users")
    by (intros z; apply downstream_chain; by_deciding).
  split; [rewrite Hc, downstream_comprehensive; reflexivity|].
  split; [rewrite Hs, downstream_simplified; reflexivity|].
  split; rewrite Hc, downstream_comprehensive; by_deciding.
Qed.

(** X3. Every node of the simplified diagram is an end of some
    connection.  In the comprehensive diagram twelve of the 39 nodes are
    declared and never connected: the four subnets, the firewall rules and
    the Filestore of each region. *)
Theorem unconnected_nodes (u : nat -> string) (k : nat) :
  unconnected (simplified_graph u k) = []
  ∧ unconnected (comprehensive_graph u k)
    = [ "web_subnet"; "app_subnet"; "db_subnet"; "gke_subnet"; "firewall";
        "filestore_primary"; "web_subnet_2"; "app_subnet_2"; "db_subnet_2";
        "gke_subnet_2"; "firewall_2"; "filestore_secondary" ]
  ∧ map (fun x => category <$> declared (comprehensive_graph u k) x)
        (unconnected (comprehensive_graph u k))
    = map Some [ VPC; VPC; VPC; VPC; FirewallRules; Filestore;
                 VPC; VPC; VPC; VPC; FirewallRules; Filestore ].
Proof. repeat split; by_running. Qed.

(** X4. The two regions are connected to each other by one connection
    only, the replication from the primary to the secondary Cloud SQL
    node, in the comprehensive and in the simplified diagram alike. *)
Theorem regions_meet_at_replication (u : nat -> string) (k : nat) :
  let dc := comprehensive_graph u k in
  let ds := simplified_graph u k in
  let regions := cluster_body "Multi-Region Deployment" (items ds) in
  map ends (crossing (cluster_body "Primary Region (us-central1)" (items dc))
                     (cluster_body "Secondary Region (us-east1)" (items dc))
                     (edges dc))
  = [("sql_primary", "sql_secondary")]
  ∧ map ends
      (crossing
         (cluster_body ("Primary Region" +:+ nl +:+ "(us-central1)") regions)
         (cluster_body ("Secondary Region" +:+ nl +:+ "(us-east1)") regions)
         (edges ds))
    = [("sql_primary", "sql_secondary")]
  ∧ length (nodes_in (cluster_body "Primary Region (us-central1)" (items dc)))
    = 13
  ∧ length
      (nodes_in
         (cluster_body ("Primary Region" +:+ nl +:+ "(us-central1)") regions))
    = 3.
Proof. repeat split; by_running. Qed.

(** X5. The simplified diagram is a view of the comprehensive one.  Its
    variables are variables of the comprehensive builder, bound to nodes of
    the same class, once [lb] is read as [lb_global]; and fourteen of its
    sixteen connections are connections of the comprehensive diagram.  The
    two that are not lead from the GKE clusters to the VPC peering node,
    which the comprehensive diagram connects to the VPC nodes instead. *)
Theorem simplified_is_a_view (u u' : nat -> string) (k k' : nat) :
  let dc := comprehensive_graph u k in
  let ds := simplified_graph u' k' in
  filter (fun x => x ∉ idents dc) (idents ds) = ["lb"]
  ∧ Forall (fun n => category <$> declared dc (in_comprehensive (ident n))
                     = Some (category n)) (all_nodes ds)
  ∧ filter (fun a => (in_comprehensive a.1, in_comprehensive a.2) ∉ arrows dc)
           (arrows ds)
    = [("gke_primary", "vpc_peering"); ("gke_secondary", "vpc_peering")]
  ∧ Forall (fun x => (x, "vpc_peering") ∈ arrows dc)
           ["vpc_primary"; "vpc_secondary"].
Proof.
  intros dc ds; subst dc ds.
  split; [by_running|]. split; [by_deciding|].
  split; [by_running|by_deciding].
Qed.

Lemma edges_declared_comprehensive u k :
  Forall (fun e => (declared (comprehensive_graph u k) (ident (src e)),
                    declared (comprehensive_graph u k) (ident (dst e)))
                   = (Some (src e), Some (dst e)))
         (edges (comprehensive_graph u k)).
Proof. apply Forall_fmap_eq. by_running. Qed.

Lemma edges_declared_simplified u k :
  Forall (fun e => (declared (simplified_graph u k) (ident (src e)),
                    declared (simplified_graph u k) (ident (dst e)))
                   = (Some (src e), Some (dst e)))
         (edges (simplified_graph u k)).
Proof. apply Forall_fmap_eq. by_running. Qed.

(** X6. Every connection joins two node objects of its own diagram: the
    node at each end is the very node, random identifier included, that
    the diagram declares under the variable the connection names. *)
Theorem edges_join_declared_nodes (u : nat -> string) (k : nat) :
  let dc := comprehensive_graph u k in
  let ds := simplified_graph u k in
  Forall (fun e => declared dc (ident (src e)) = Some (src e)
                   ∧ declared dc (ident (dst e)) = Some (dst e)
                   ∧ src e ∈ all_nodes dc ∧ dst e ∈ all_nodes dc) (edges dc)
  ∧ Forall (fun e => declared ds (ident (src e)) = Some (src e)
                     ∧ declared ds (ident (dst e)) = Some (dst e)
                     ∧ src e ∈ all_nodes ds ∧ dst e ∈ all_nodes ds) (edges ds).
Proof.
  intros dc ds; subst dc ds. split.
  - generalize (edges_declared_comprehensive u k).
    generalize (comprehensive_graph u k); intros d.
    intros Hall. eapply Forall_impl; [exact Hall|].
    intros e He. cbv beta in He.
    apply pair_eq in He as [Hs Hd].
    split; [exact Hs|]. split; [exact Hd|].
    split; [exact (declared_elem_of _ _ _ Hs)|exact (declared_elem_of _ _ _ Hd)].
  - generalize (edges_declared_simplified u k).
    generalize (simplified_graph u k); intros d.
    intros Hall. eapply Forall_impl; [exact Hall|].
    intros e He. cbv beta in He.
    apply pair_eq in He as [Hs Hd].
    split; [exact Hs|]. split; [exact Hd|].
    split; [exact (declared_elem_of _ _ _ Hs)|exact (declared_elem_of _ _ _ Hd)].
Qed.

Lemma uids_comprehensive u k :
  map uid (all_nodes (comprehensive_graph u k)) = map u (seq k 39).
Proof. by_running. Qed.

Lemma uids_simplified u k :
  map uid (all_nodes (simplified_graph u k)) = map u (seq k 13).
Proof. by_running. Qed.

Lemma uids_of_a_run u k :
  map uid (all_nodes (comprehensive_graph u k)
           ++ all_nodes (simplified_graph u (39 + k)))
  = map u (seq k (39 + 13)).
Proof.
  rewrite map_app, uids_comprehensive, uids_simplified.
  rewrite seq_app, map_app, (Nat.add_comm k 39). reflexivity.
Qed.

Lemma uids_distinct u k : Inj (=) (=) u ->
  NoDup (map uid (all_nodes (comprehensive_graph u k)
           ++ all_nodes (simplified_graph u (39 + k)))).
Proof.
  intros Hinj. rewrite uids_of_a_run.
    apply (NoDup_fmap_2 u), NoDup_seq.
Qed.

Lemma nodes_apart (d1 d2 : Diagram) :
  NoDup (map uid (all_nodes d1 ++ all_nodes d2)) ->
  Forall (fun e => (declared d2 (ident (src e)),
                                    declared d2 (ident (dst e)))
                                   = (Some (src e), Some (dst e))) (edges d2) ->
  Forall (fun e => (src e ∉ all_nodes d1) ∧ (dst e ∉ all_nodes d1)) (edges d2).
Proof.
  intros Hnd Hdecl.
  rewrite map_app in Hnd. apply NoDup_app in Hnd as (_ & Hdisj & _).
  assert (Hout : forall n, n ∈ all_nodes d2 -> n ∉ all_nodes d1).
  { intros n H2 H1. apply (Hdisj (uid n)); by apply list_elem_of_fmap_2. }
  eapply Forall_impl; [exact Hdecl|].
  intros e He. cbv beta in He. apply pair_eq in He as [Hs Hd].
  split; apply Hout.
  - exact (declared_elem_of _ _ _ Hs).
  - exact (declared_elem_of _ _ _ Hd).
Qed.

Lemma shared_variables u k :
  length (filter (fun x => x ∈ idents (comprehensive_graph u k))
                 (idents (simplified_graph u (39 + k)))) = 12.
Proof. by_running. Qed.

(** X7. The random identifiers of one run.  The script builds the
    comprehensive graph first and the simplified graph on the identifiers
    that follow.  If [uuid4] never repeats itself, the 52 nodes of the two
    graphs have pairwise different identifiers; and although twelve of the
    thirteen variables of the second builder are variables of the first as
    well, no connection of the second graph touches a node of the first. *)
Theorem identifiers_distinct_in_a_run (u : nat -> string) (k : nat) :
  Inj (=) (=) u ->
  let d1 := comprehensive_graph u k in
  let d2 := simplified_graph u (39 + k) in
  NoDup (map uid (all_nodes d1 ++ all_nodes d2))
  ∧ length (filter (fun x => x ∈ idents d1) (idents d2)) = 12
  ∧ Forall (fun e => (src e ∉ all_nodes d1) ∧ (dst e ∉ all_nodes d1))
           (edges d2).
Proof.
  intros Hinj d1 d2. subst d1 d2.
  split; [exact (uids_distinct u k Hinj)|].
  split; [exact (shared_variables u k)|].
  exact (nodes_apart _ _ (uids_distinct u k Hinj)
           (edges_declared_simplified u (39 + k))).
Qed.

Lemma identifiers_distinct_in_a_run_witness :
  NoDup (map uid (all_nodes (comprehensive_graph (uuid4 host0) 0)
                  ++ all_nodes (simplified_graph (uuid4 host0) (39 + 0)))).
Proof.
  exact (proj1 (identifiers_distinct_in_a_run (uuid4 host0) 0 pretty_nat_inj)).
Defined.

(** * What a run prints and what it leaves *)


Lemma silent_until n :
  n <= 2 -> Forall (fun a => a.1 ∉ take n transcript) announcements.
Proof.
  intros Hn.
  assert (Hn' : n = 0 ∨ n = 1 ∨ n = 2) by lia.
  destruct Hn' as [->|[->| ->]]; by_deciding.
Qed.

(** X8. The script never announces an image it has not written.  However
    a run ends, the lines it has printed are a prefix of the transcript,
    and each printed line that names an image ("saved as ..." and the
    closing list of files) names a file that exists when the run ends.
    The whole transcript is printed exactly when the run returns. *)
Theorem announcements_are_truthful (h : Host) (s : St) :
  ctx_cluster (world s) = [] ->
  let s' := outcome (main h s) in
  exists printed,
    stdout (world s') = stdout (world s) ++ printed
    ∧ printed `prefix_of` transcript
    ∧ Forall (fun a => a.1 ∈ printed -> a.2 ∈ files (world s')) announcements
    ∧ (printed = transcript <-> exists s'', main h s = Ok tt s'').
Proof.
  intros Hs s'. subst s'. rewrite (main_run h s Hs). cbv zeta.
  destruct (engine h (comprehensive_graph _ _)) as [e1|].
  { exists (take 2 transcript). simpl outcome. fields.
    split; [reflexivity|]. split; [apply prefix_take|]. split.
    - eapply Forall_impl; [exact (silent_until 2 (le_n 2))|].
      intros a Ha Hin. by destruct Ha.
    - split; [intros Heq; by apply (f_equal length) in Heq|].
      intros [s'' Hrun]. discriminate Hrun. }
  destruct (engine h (simplified_graph _ _)) as [e2|].
  { exists (take 4 transcript). simpl outcome. fields.
    split; [reflexivity|]. split; [apply prefix_take|]. split.
    - unfold announcements.
      repeat (apply Forall_cons_2;
                [ intros Hin;
                  first [ exfalso; revert Hin; by_deciding
                        | apply elem_of_union_r, png_written, names_apart ]
                | ]).
      apply Forall_nil_2.
    - split; [intros Heq; by apply (f_equal length) in Heq|].
      intros [s'' Hrun]. discriminate Hrun. }
  exists transcript. simpl outcome. fields.
  split; [reflexivity|]. split; [reflexivity|]. split.
  - assert (Hc : comprehensive_png
                 ∈ ({[ simplified_png ]}
                      ∪ ({[ simplified_dot ]}
                           ∪ ({[ comprehensive_png ]}
                                ∪ ({[ comprehensive_dot ]}
                                     ∪ files (world s)))
                             ∖ {[ comprehensive_dot ]}))
                     ∖ {[ simplified_dot ]}).
    { apply stays_written; [apply names_apart|].
      apply png_written, names_apart. }
    assert (Hsi : simplified_png
                  ∈ ({[ simplified_png ]}
                       ∪ ({[ simplified_dot ]}
                            ∪ ({[ comprehensive_png ]}
                                 ∪ ({[ comprehensive_dot ]}
                                      ∪ files (world s)))
                              ∖ {[ comprehensive_dot ]}))
                      ∖ {[ simplified_dot ]})
      by apply png_written, names_apart.
    unfold announcements.
    repeat (apply Forall_cons_2; [intros _; first [exact Hc|exact Hsi]|]).
    apply Forall_nil_2.
  - split; [intros _; eexists; reflexivity|reflexivity].
Qed.

Lemma announcements_are_truthful_witness :
  exists printed,
    stdout (world (outcome (main host_half s0))) = stdout (world s0) ++ printed
    ∧ printed `prefix_of` transcript
    ∧ Forall (fun a => a.1 ∈ printed ->
                       a.2 ∈ files (world (outcome (main host_half s0))))
             announcements
    ∧ (printed = transcript <-> exists s'', main host_half s0 = Ok tt s'').
Proof. exact (announcements_are_truthful host_half s0 eq_refl). Defined.

(** X9. Running the script a second time rewrites the same two images:
    after two successful runs, under whatever hosts, the files are those
    left by the first run; the transcript has been printed twice; and the
    engine has been given four graphs, the third and the fourth of the
    same structure as the first and the second, on 104 fresh
    identifiers. *)
Theorem second_run_rewrites_the_images (h h' : Host) (s s1 s2 : St) :
  ctx_cluster (world s) = [] ->
  main h s = Ok tt s1 ->
  main h' s1 = Ok tt s2 ->
  files (world s2) = files (world s1)
  ∧ stdout (world s2) = stdout (world s) ++ transcript ++ transcript
  ∧ (exists d1 d2 d3 d4,
       handed (world s2) = handed (world s) ++ [d1; d2; d3; d4]
       ∧ structure d3 = structure d1 ∧ structure d4 = structure d2)
  ∧ drawn (world s2) = 104 + drawn (world s)
  ∧ locals s2 = locals s.
Proof.
  intros Hs Hrun1 Hrun2.
  rewrite (main_run h s Hs) in Hrun1. cbv zeta in Hrun1.
  destruct (engine h (comprehensive_graph _ _)); [done|].
  destruct (engine h (simplified_graph _ _)); [done|].
  injection Hrun1 as <-.
  rewrite main_run in Hrun2 by reflexivity. cbv zeta in Hrun2. fields_in Hrun2.
  destruct (engine h' (comprehensive_graph _ _)); [done|].
  destruct (engine h' (simplified_graph _ _)); [done|].
  injection Hrun2 as <-. fields.
  split.
  { rewrite !(written_twice comprehensive_png simplified_png
                comprehensive_dot simplified_dot) by apply names_apart.
    apply written_again; apply names_apart. }
  split; [by rewrite <- app_assoc|].
  split.
  - do 4 eexists. split; [by rewrite <- app_assoc|].
    split; [apply structure_comprehensive|apply structure_simplified].
  - split; [lia|reflexivity].
Qed.

Lemma second_run_rewrites_the_images_witness :
  files (world (outcome (main host0 (outcome (main host0 s0)))))
  = files (world (outcome (main host0 s0))).
Proof.
  refine (proj1 (second_run_rewrites_the_images host0 host0 s0
                   (outcome (main host0 s0))
                   (outcome (main host0 (outcome (main host0 s0))))
                   eq_refl _ _)); vm_compute; reflexivity.
Defined.

(** * The builders and the engine *)

Lemma finish_raises h L w d e :
  (exists s', finish h L w d = Raise e s') <-> engine h d = Some e.
Proof.
  unfold finish. destruct (engine h d) as [e'|]; split.
  - intros [s' Hrun]. by injection Hrun as -> _.
  - intros Heq. injection Heq as ->. by eexists.
  - intros [s' Hrun]. discriminate Hrun.
  - intros Heq. discriminate Heq.
Qed.

Lemma finish_returns h L w d :
  (exists s', finish h L w d = Ok tt s') <-> engine h d = None.
Proof.
  unfold finish. destruct (engine h d) as [e'|]; split.
  - intros [s' Hrun]. discriminate Hrun.
  - intros Heq. discriminate Heq.
  - intros _. reflexivity.
  - intros _. by eexists.
Qed.

Lemma finish_clears h L w d s1 :
  finish h L w d = Ok tt s1 -> ctx_diagram (world s1) = None.
Proof.
  unfold finish. destruct (engine h d); intros Hrun;
    [discriminate Hrun|].
  injection Hrun as <-. reflexivity.
Qed.

(** X10. A builder fails only with the engine.  Called with no cluster
    open, a builder raises an exception exactly when the engine raises it
    on the builder's graph, and returns exactly when the engine accepts
    the graph: no variable is read before it is bound, and no constructor
    or cluster is reached outside the diagram. *)
Theorem builders_fail_only_with_the_engine (h : Host) (s : St) (e : Exn) :
  ctx_cluster (world s) = [] ->
  ((exists s', call (create_gcp_architecture_diagram h) s = Raise e s')
   <-> engine h (comprehensive_graph (uuid4 h) (drawn (world s))) = Some e)
  ∧ ((exists s', call (create_gcp_architecture_diagram h) s = Ok tt s')
     <-> engine h (comprehensive_graph (uuid4 h) (drawn (world s))) = None)
  ∧ ((exists s', call (create_simplified_architecture_diagram h) s = Raise e s')
     <-> engine h (simplified_graph (uuid4 h) (drawn (world s))) = Some e)
  ∧ ((exists s', call (create_simplified_architecture_diagram h) s = Ok tt s')
     <-> engine h (simplified_graph (uuid4 h) (drawn (world s))) = None).
Proof.
  intros Hs.
  rewrite (call_comprehensive h s Hs), (call_simplified h s Hs).
  repeat split;
    first [apply finish_raises|apply finish_returns
          |by apply finish_raises|by apply finish_returns].
Qed.

Lemma builders_fail_only_with_the_engine_witness :
  (exists s', call (create_gcp_architecture_diagram host_down) s0
              = Raise (RenderError "dot not found") s')
  <-> engine host_down
        (comprehensive_graph (uuid4 host_down) (drawn (world s0)))
      = Some (RenderError "dot not found").
Proof.
  exact (proj1 (builders_fail_only_with_the_engine host_down s0
                  (RenderError "dot not found") eq_refl)).
Defined.

(** X11. A builder leaves no diagram behind.  When a builder returns, the
    package has no current diagram, also when the caller had a diagram of
    its own open before the call: the next node declaration raises the
    package's EnvironmentError, having bound no variable and touched no
    file, and so does the next cluster block, whatever its body. *)
Theorem no_drawing_after_a_builder (h : Host) (s s1 : St)
    (x : string) (c : Category) (l lbl : string) (body : list (M unit)) :
  ctx_cluster (world s) = [] ->
  call (create_gcp_architecture_diagram h) s = Ok tt s1
  ∨ call (create_simplified_architecture_diagram h) s = Ok tt s1 ->
  ctx_diagram (world s1) = None
  ∧ (exists s2,
       declare h x c l s1 = Raise no_context s2
       ∧ locals s2 = locals s1
       ∧ ctx_diagram (world s2) = None
       ∧ files (world s2) = files (world s1)
       ∧ handed (world s2) = handed (world s1))
  ∧ Cluster lbl body s1 = Raise no_context s1.
Proof.
  intros Hs Hrun.
  assert (Hnone : ctx_diagram (world s1) = None).
  { destruct Hrun as [Hrun|Hrun];
      [rewrite (call_comprehensive h s Hs) in Hrun
      |rewrite (call_simplified h s Hs) in Hrun];
      exact (finish_clears _ _ _ _ _ Hrun). }
  clear Hrun. destruct s1 as [L1 [cd1 cc1 k1 out1 fs1 hd1]].
  simpl in Hnone. subst cd1.
  split; [reflexivity|]. split; [|reflexivity].
  eexists. split; [reflexivity|]. by repeat split.
Qed.

Lemma no_drawing_after_a_builder_witness :
  Cluster "Mine" [declare host0 "mine" VPC "Mine"]
    (outcome (call (create_simplified_architecture_diagram host0) s_outer))
  = Raise no_context
      (outcome (call (create_simplified_architecture_diagram host0) s_outer)).
Proof.
  refine (proj2 (proj2 (no_drawing_after_a_builder host0 s_outer
            (outcome (call (create_simplified_architecture_diagram host0)
                           s_outer))
            "mine" VPC "Mine" "Mine" [declare host0 "mine" VPC "Mine"]
            eq_refl (or_intror _)))).
  vm_compute. reflexivity.
Defined.
